(** * groq_demo.py: the Streamlit demo page of the Groq LLM integration

    A shallow embedding of [main] of [groq_demo.py].  The page is one Python
    function that talks to three external collaborators: the Streamlit
    runtime ([st.*]), the secrets store ([st.secrets]) and the client
    wrapper ([GroqLLM]).  Their answers form a [World]; every run of [main]
    produces the ordered trace of the widgets it rendered and of the calls it
    made to the secrets store and to the client. *)

From Stdlib Require Import List String Ascii Bool NArith ZArith QArith.
Import ListNotations.

Set Implicit Arguments.
Set Warnings "-register-all".

(** ** Python strings *)

(** A Python [str] is a sequence of Unicode code points. *)
Definition pystr : Type := list N.

(** The source file is UTF-8 (the default source encoding): [py] decodes the
    bytes of a literal, as they stand in the file, into its code points. *)
Fixpoint utf8_decode (acc : N) (more : nat) (s : string) : pystr :=
  match s with
  | EmptyString => []
  | String c s' =>
      let b := N_of_ascii c in
      match more with
      | O =>
          if (b <? 128)%N then b :: utf8_decode 0%N 0 s'
          else if (b <? 224)%N then utf8_decode (N.land b 31) 1 s'
          else if (b <? 240)%N then utf8_decode (N.land b 15) 2 s'
          else utf8_decode (N.land b 7) 3 s'
      | S O => (acc * 64 + N.land b 63)%N :: utf8_decode 0%N 0 s'
      | S m => utf8_decode (acc * 64 + N.land b 63)%N m s'
      end
  end.

Definition py (s : string) : pystr := utf8_decode 0%N 0 s.
Arguments py s%_string.

(** The double quote and the line feed, for literals that contain them. *)
Definition DQ : string := String (ascii_of_nat 34) EmptyString.
Definition LF : string := String (ascii_of_nat 10) EmptyString.

(** A triple-quoted literal, given line by line. *)
Fixpoint joinlines (ls : list string) : string :=
  match ls with
  | [] => EmptyString
  | [l] => l
  | l :: rest => (l ++ LF ++ joinlines rest)%string
  end.

(** [str.isspace] on one code point: the characters whose bidirectional type
    is WS, B or S, or whose category is Zs. *)
Definition isspace (c : N) : bool :=
  ((9 <=? c) && (c <=? 13) || (28 <=? c) && (c <=? 32)
   || (c =? 133) || (c =? 160) || (c =? 5760)
   || (8192 <=? c) && (c <=? 8202)
   || (c =? 8232) || (c =? 8233) || (c =? 8239) || (c =? 8287)
   || (c =? 12288))%N.

Fixpoint lstrip (s : pystr) : pystr :=
  match s with
  | [] => []
  | c :: s' => if isspace c then lstrip s' else s
  end.

Definition rstrip (s : pystr) : pystr := rev (lstrip (rev s)).

(** A formatted literal with one replacement field at its end: the literal
    text followed by the formatted value. *)
Definition fstring (text tail : pystr) : pystr := text ++ tail.

(** [s.strip()] with no argument. *)
Definition strip (s : pystr) : pystr := rstrip (lstrip s).

(** ** Python values *)

(** [int] and [float] keep apart; a float literal is held as the decimal
    fraction it is written as. *)
Inductive number : Type :=
| PyInt (z : Z)
| PyFloat (q : Q).

Definition number_Q (n : number) : Q :=
  match n with
  | PyInt z => inject_Z z
  | PyFloat q => q
  end.

Definition num_le (a b : number) : bool := Qle_bool (number_Q a) (number_Q b).

(** The values that cross the interfaces of the page: what a secrets file
    can hold, what is passed to the client and what [st.write] and [st.json]
    are given. *)
Inductive value : Type :=
| VNone
| VBool (b : bool)
| VNum (n : number)
| VStr (s : pystr)
| VList (l : list value)
| VDict (d : list (pystr * value)).

Definition kwargs : Type := list (pystr * value).

(** Truth value testing, as [if not api_key] applies it. *)
Definition truthy (v : value) : bool :=
  match v with
  | VNone => false
  | VBool b => b
  | VNum n => negb (Qeq_bool (number_Q n) 0)
  | VStr s => match s with [] => false | _ => true end
  | VList l => match l with [] => false | _ => true end
  | VDict d => match d with [] => false | _ => true end
  end.

(** ** Exceptions *)

(** What the call [str(e)] does: it returns the text of the exception or,
    when the [__str__] of its class fails, raises in its turn. *)
Inductive str_result (E : Type) : Type :=
| Str (s : pystr)
| StrRaises (e : E).
Arguments Str {E} s.
Arguments StrRaises {E} e.

(** Of a raised exception the page looks at two things: whether it is an
    instance of [Exception] (what the [except Exception] clause tests; a
    [KeyboardInterrupt] or a [SystemExit] is not) and what [str(e)] does. *)
Inductive exn : Type := Build_exn {
  isinstance_Exception : bool;
  exn_str : str_result exn
}.

(** What a call to a collaborator does: it returns or it raises. *)
Inductive outcome (A : Type) : Type :=
| Returns (a : A)
| Raises (e : exn).
Arguments Raises {A} e.

(** ** The client interface *)

(** The response object: [content], [model], [usage], [metadata]. *)
Record LLMResponse : Type := {
  content : pystr;
  model : pystr;
  usage : value;
  metadata : value
}.

(** A [GroqLLM] handle, as far as the page uses it. *)
Record GroqLLM : Type := {
  is_available : outcome bool;
  generate : list value -> kwargs -> outcome LLMResponse
}.

(** ** The world of one render *)

Record World : Type := {
  (** [st.secrets.get(name)] *)
  secrets_get : pystr -> outcome value;
  (** the constructor [GroqLLM], from its positional and keyword arguments *)
  GroqLLM_init : list value -> kwargs -> outcome GroqLLM;
  (** the text a [st.text_area] holds, from its label and initial value *)
  text_area_value : pystr -> pystr -> pystr;
  (** whether the [st.button] of that label was clicked *)
  button_clicked : pystr -> bool;
  (** the position of a [st.slider], from its label, bounds, initial value
      and step *)
  slider_value : pystr -> number -> number -> number -> number -> number
}.

(** ** Traces *)

(** The [with] blocks a widget or a call sits in. *)
Inductive container : Type :=
| Column (i : nat)
| InExpander (label : pystr)
| InSpinner (text : pystr).

Definition path : Type := list container.

Inductive widget : Type :=
| Title (body : pystr)
| Markdown (body : pystr)
| Subheader (body : pystr)
| InfoBox (body : pystr)
| ErrorBox (body : pystr)
| SuccessBox (body : pystr)
| WarningBox (body : pystr)
| TextArea (label initial : pystr) (height : Z) (current : pystr)
| Columns (spec : list Z)
| Button (label type : pystr) (clicked : bool)
| Spinner (text : pystr)
| Written (v : value)
| Expander (label : pystr)
| Json (v : value)
| Slider (label : pystr) (min_value max_value initial step current : number)
| Code (body language : pystr).

Inductive call : Type :=
| SecretsGet (name : pystr)
| Construct (args : list value) (kw : kwargs)
| IsAvailable
| Generate (args : list value) (kw : kwargs).

Inductive event : Type :=
| Ui (at_ : path) (w : widget)
| Ext (at_ : path) (c : call).

Definition trace : Type := list event.

(** ** Control flow *)

(** How a block of statements ends. *)
Inductive flow (A : Type) : Type :=
| Normal (a : A)
| Returning
| Raising (e : exn).
Arguments Returning {A}.
Arguments Raising {A} e.

(** A block runs inside the enclosing [with] blocks and extends the trace,
    which is kept newest first. *)
Definition M (A : Type) : Type := path -> trace -> flow A * trace.

Definition ret {A} (a : A) : M A := fun _ t => (Normal a, t).

Definition bind {A B} (m : M A) (k : A -> M B) : M B :=
  fun p t =>
    match m p t with
    | (Normal a, t') => k a p t'
    | (Returning, t') => (Returning, t')
    | (Raising e, t') => (Raising e, t')
    end.

Declare Scope py_scope.
Delimit Scope py_scope with python.
Notation "x <- m ;; k" := (bind m (fun x => k))
  (at level 61, m at next level, right associativity) : py_scope.
Notation "m ;; k" := (bind m (fun _ => k))
  (at level 61, right associativity) : py_scope.
Open Scope py_scope.

(** [return] *)
Definition return_ {A} : M A := fun _ t => (Returning, t).

Definition render (w : widget) : M unit := fun p t => (Normal tt, Ui p w :: t).

(** A call to a collaborator is logged, then returns or raises. *)
Definition extcall {A} (c : call) (o : outcome A) : M A :=
  fun p t =>
    match o with
    | Returns a => (Normal a, Ext p c :: t)
    | Raises e => (Raising e, Ext p c :: t)
    end.

(** [str(e)]: a call, which returns the text or raises. *)
Definition str (e : exn) : M pystr :=
  fun _ t =>
    match exn_str e with
    | Str s => (Normal s, t)
    | StrRaises e' => (Raising e', t)
    end.

(** [with c: body].  The context managers of Streamlit swallow nothing. *)
Definition with_ {A} (c : container) (body : M A) : M A :=
  fun p t => body (p ++ [c]) t.

(** [try: body except Exception as e: handler(e)] *)
Definition try_except_Exception (body : M unit) (handler : exn -> M unit)
  : M unit :=
  fun p t =>
    match body p t with
    | (Raising e, t') =>
        if isinstance_Exception e then handler e p t' else (Raising e, t')
    | r => r
    end.

(** [if c: body] without [else]. *)
Definition when (c : bool) (body : M unit) : M unit :=
  if c then body else ret tt.

(** ** The Streamlit calls of the page *)

Module st.

Definition title (body : pystr) : M unit := render (Title body).
Definition markdown (body : pystr) : M unit := render (Markdown body).
Definition subheader (body : pystr) : M unit := render (Subheader body).
Definition info (body : pystr) : M unit := render (InfoBox body).
Definition error (body : pystr) : M unit := render (ErrorBox body).
Definition success (body : pystr) : M unit := render (SuccessBox body).
Definition warning (body : pystr) : M unit := render (WarningBox body).
Definition write (v : value) : M unit := render (Written v).
Definition json (v : value) : M unit := render (Json v).
Definition code (body language : pystr) : M unit :=
  render (Code body language).

(** [st.secrets.get(name)] *)
Definition secrets_get (w : World) (name : pystr) : M value :=
  extcall (SecretsGet name) (secrets_get w name).

(** [st.text_area(label, value=initial, height=height)] *)
Definition text_area (w : World) (label initial : pystr) (height : Z)
  : M pystr :=
  let current := text_area_value w label initial in
  render (TextArea label initial height current) ;; ret current.

(** [st.columns(spec)]; the columns are entered with [with_ (Column i)]. *)
Definition columns (spec : list Z) : M unit := render (Columns spec).

(** [st.button(label, type=type)] *)
Definition button (w : World) (label type : pystr) : M bool :=
  let clicked := button_clicked w label in
  render (Button label type clicked) ;; ret clicked.

(** [st.slider(label, min_value, max_value, value, step)] *)
Definition slider (w : World) (label : pystr)
           (min_value max_value initial step : number) : M number :=
  let current := slider_value w label min_value max_value initial step in
  render (Slider label min_value max_value initial step current) ;;
  ret current.

(** [with st.spinner(text): body] *)
Definition spinner {A} (text : pystr) (body : M A) : M A :=
  render (Spinner text) ;; with_ (InSpinner text) body.

(** [with st.expander(label): body] *)
Definition expander {A} (label : pystr) (body : M A) : M A :=
  render (Expander label) ;; with_ (InExpander label) body.

End st.

(** ** The calls to the client *)

(** the call [GroqLLM(...)] with positional and keyword arguments *)
Definition GroqLLM_ (w : World) (args : list value) (kw : kwargs)
  : M GroqLLM :=
  extcall (Construct args kw) (GroqLLM_init w args kw).

(** [llm.is_available()] *)
Definition llm_is_available (llm : GroqLLM) : M bool :=
  extcall IsAvailable (is_available llm).

(** the call [llm.generate(...)] with positional and keyword arguments *)
Definition llm_generate (llm : GroqLLM) (args : list value) (kw : kwargs)
  : M LLMResponse :=
  extcall (Generate args kw) (generate llm args kw).

(** ** The literals of the page *)

Local Open Scope string_scope.

Definition info_text : pystr := py (joinlines [
  EmptyString;
  "    This demo shows how the Groq API key is securely managed:";
  "    ";
  "    1. **Local Development**: API key stored in `.streamlit/secrets.toml` (excluded from Git)";
  "    2. **Production**: API key set in Streamlit Cloud secrets (not exposed in code)";
  "    3. **Zero GitHub Exposure**: Keys never committed to version control";
  "    "]).

Definition setup_instructions : pystr := py (joinlines [
  EmptyString;
  "            **Setup Instructions:**";
  "            1. Create `.streamlit/secrets.toml` in your project root";
  "            2. Add: `GROQ_API_KEY = " ++ DQ ++ "your_actual_key_here" ++ DQ ++ "`";
  "            3. Get your key from: https://console.groq.com/keys";
  "            "]).

Definition implementation_code : pystr := py (joinlines [
  EmptyString;
  "# In streamlit_app.py";
  "import streamlit as st";
  "from your_module import GroqLLM";
  EmptyString;
  "# Create LLM using key from Streamlit secrets";
  "llm = GroqLLM(api_key=st.secrets[" ++ DQ ++ "GROQ_API_KEY" ++ DQ ++ "])";
  EmptyString;
  "# Generate response";
  "response = llm.generate(" ++ DQ ++ "Hello from Streamlit!" ++ DQ ++ ")";
  "st.write(response.content)";
  "            "]).

Definition secrets_sample : pystr := py (joinlines [
  EmptyString;
  "GROQ_API_KEY = " ++ DQ ++ "gsk_xxx_your_key_here" ++ DQ;
  "            "]).

Definition common_issues : pystr := py (joinlines [
  EmptyString;
  "        **Common Issues:**";
  "        1. Missing API key in secrets";
  "        2. Invalid API key format";
  "        3. Network connectivity issues";
  "        4. Groq package not installed (`pip install groq`)";
  "        "]).

Definition default_prompt : pystr :=
  py "Hello from Streamlit! Please explain what you are in one sentence.".

Local Open Scope list_scope.

(** ** The page *)

Definition main (w : World) : M unit :=
  st.title (py "🚀 Groq LLM Integration Demo") ;;
  st.markdown (py "---") ;;
  st.subheader (py "🔐 Secure API Key Management") ;;
  st.info info_text ;;
  try_except_Exception
    (api_key <- st.secrets_get w (py "GROQ_API_KEY") ;;
     when (negb (truthy api_key))
       (st.error (py "❌ GROQ_API_KEY not found in Streamlit secrets") ;;
        st.markdown setup_instructions ;;
        return_) ;;
     llm <- GroqLLM_ w [] [(py "api_key", api_key)] ;;
     available <- llm_is_available llm ;;
     when (negb available)
       (st.error (py "❌ Groq LLM is not available") ;;
        return_) ;;
     st.success (py "✅ Groq LLM Successfully Connected!") ;;
     st.subheader (py "💬 Try the LLM") ;;
     user_prompt <- st.text_area w (py "Enter your prompt:") default_prompt 100 ;;
     st.columns [1; 3]%Z ;;
     with_ (Column 0)
       (pressed <- st.button w (py "🎯 Generate Response") (py "primary") ;;
        when pressed
          (if truthy (VStr (strip user_prompt)) then
             response <- st.spinner (py "Generating response...")
                           (llm_generate llm [VStr user_prompt] []) ;;
             st.subheader (py "🤖 Response") ;;
             st.write (VStr (content response)) ;;
             st.expander (py "📊 Response Details")
               (st.json (VDict [(py "model", VStr (model response));
                                (py "usage", usage response);
                                (py "metadata", metadata response)]))
           else
             st.warning (py "Please enter a prompt first!"))) ;;
     with_ (Column 1)
       (st.subheader (py "⚙️ Settings") ;;
        temperature <- st.slider w (py "Temperature")
                         (PyFloat 0.0) (PyFloat 1.0) (PyFloat 0.3) (PyFloat 0.1) ;;
        max_tokens <- st.slider w (py "Max Tokens")
                        (PyInt 50) (PyInt 1000) (PyInt 500) (PyInt 50) ;;
        ret tt) ;;
     st.subheader (py "📝 Implementation Code") ;;
     st.expander (py "View the secure implementation")
       (st.code implementation_code (py "python") ;;
        st.markdown (py "**Secrets setup (.streamlit/secrets.toml):**") ;;
        st.code secrets_sample (py "toml") ;;
        st.markdown (py "**Gitignore entry:**") ;;
        st.code (py ".streamlit/secrets.toml") (py "text")))
    (fun e =>
       text <- str e ;;
       st.error (fstring (py "❌ Error initializing Groq LLM: ") text) ;;
       st.markdown common_issues).

(** One run of the script: [main()] is called at module level; a [return]
    ends the call, an exception that nothing caught leaves it. *)
Inductive ending : Type :=
| Finished
| Escaped (e : exn).

Definition run_main (w : World) : ending * trace :=
  match main w [] [] with
  | (Normal _, t) => (Finished, rev t)
  | (Returning, t) => (Finished, rev t)
  | (Raising e, t) => (Escaped e, rev t)
  end.

(** ** Reading a trace *)

(** The name the key is looked up under, the text of the prompt box and the
    state of the trigger, as [main] asks the world for them. *)
Definition GROQ_API_KEY : pystr := py "GROQ_API_KEY".

Definition user_prompt (w : World) : pystr :=
  text_area_value w (py "Enter your prompt:") default_prompt.

Definition trigger_pressed (w : World) : bool :=
  button_clicked w (py "🎯 Generate Response").

(** The key is there, the client was built from it and says it is ready. *)
Definition connected (w : World) (llm : GroqLLM) : Prop :=
  exists k,
    secrets_get w GROQ_API_KEY = Returns k /\ truthy k = true /\
    GroqLLM_init w [] [(py "api_key", k)] = Returns llm /\
    is_available llm = Returns true.

Definition renders (t : trace) (p : path) (x : widget) : Prop := In (Ui p x) t.

Definition is_generate (e : event) : bool :=
  match e with Ext _ (Generate _ _) => true | _ => false end.

Definition is_construct (e : event) : bool :=
  match e with Ext _ (Construct _ _) => true | _ => false end.

Definition is_error (e : event) : bool :=
  match e with Ui _ (ErrorBox _) => true | _ => false end.

Definition is_success (e : event) : bool :=
  match e with Ui _ (SuccessBox _) => true | _ => false end.

(** The interactive controls: prompt box, trigger and sliders. *)
Definition is_control (e : event) : bool :=
  match e with
  | Ui _ (TextArea _ _ _ _) | Ui _ (Button _ _ _)
  | Ui _ (Slider _ _ _ _ _ _) => true
  | _ => false
  end.

Definition never (f : event -> bool) (t : trace) : Prop := existsb f t = false.

(** The arguments of the [generate] calls of a trace, in order. *)
Fixpoint generate_calls (t : trace) : list (list value * kwargs) :=
  match t with
  | [] => []
  | Ext _ (Generate a kw) :: t' => (a, kw) :: generate_calls t'
  | _ :: t' => generate_calls t'
  end.

(** The operations invoked on the client handle, in order. *)
Fixpoint client_ops (t : trace) : list call :=
  match t with
  | [] => []
  | Ext _ IsAvailable :: t' => IsAvailable :: client_ops t'
  | Ext _ (Generate a kw) :: t' => Generate a kw :: client_ops t'
  | _ :: t' => client_ops t'
  end.

(** The sliders of a trace, in order. *)
Fixpoint sliders (t : trace) : list widget :=
  match t with
  | [] => []
  | Ui _ (Slider label lo hi initial step current) :: t' =>
      Slider label lo hi initial step current :: sliders t'
  | _ :: t' => sliders t'
  end.

(** What the page shows: the widgets with their places, without the calls. *)
Fixpoint rendered (t : trace) : list (path * widget) :=
  match t with
  | [] => []
  | Ui p x :: t' => (p, x) :: rendered t'
  | Ext _ _ :: t' => rendered t'
  end.

(** The trace without its constructor calls, the only events that carry the
    key. *)
Fixpoint without_construct (t : trace) : trace :=
  match t with
  | [] => []
  | Ext _ (Construct _ _) :: t' => without_construct t'
  | e :: t' => e :: without_construct t'
  end.

(** The two sliders of the settings column, as [main] sets them up, at the
    positions the world gives them. *)
Definition temperature_slider (w : World) : widget :=
  Slider (py "Temperature") (PyFloat 0.0) (PyFloat 1.0) (PyFloat 0.3)
    (PyFloat 0.1)
    (slider_value w (py "Temperature") (PyFloat 0.0) (PyFloat 1.0)
       (PyFloat 0.3) (PyFloat 0.1)).

Definition max_tokens_slider (w : World) : widget :=
  Slider (py "Max Tokens") (PyInt 50) (PyInt 1000) (PyInt 500) (PyInt 50)
    (slider_value w (py "Max Tokens") (PyInt 50) (PyInt 1000) (PyInt 500)
       (PyInt 50)).

(** The world [w] with other slider positions. *)
Definition with_sliders (w : World)
           (sv : pystr -> number -> number -> number -> number -> number)
  : World :=
  {| secrets_get := secrets_get w;
     GroqLLM_init := GroqLLM_init w;
     text_area_value := text_area_value w;
     button_clicked := button_clicked w;
     slider_value := sv |}.

(** An exception [e] is raised in the render of [w] by the key lookup, by
    the constructor, by the availability check or by the generation. *)
Definition raised_in (w : World) (e : exn) : Prop :=
  secrets_get w GROQ_API_KEY = Raises e \/
  exists k,
    secrets_get w GROQ_API_KEY = Returns k /\ truthy k = true /\
    (GroqLLM_init w [] [(py "api_key", k)] = Raises e \/
     exists llm,
       GroqLLM_init w [] [(py "api_key", k)] = Returns llm /\
       (is_available llm = Raises e \/
        (is_available llm = Returns true /\
         trigger_pressed w = true /\
         strip (user_prompt w) <> [] /\
         generate llm [VStr (user_prompt w)] [] = Raises e))).

(** The run ends normally and its last two widgets are the error box that
    carries [text] and the list of common issues. *)
Definition caught_and_reported (w : World) (text : pystr) : Prop :=
  fst (run_main w) = Finished /\
  exists before,
    snd (run_main w) =
    before ++
    [Ui [] (ErrorBox (fstring (py "❌ Error initializing Groq LLM: ") text));
     Ui [] (Markdown common_issues)].

(** The run ends normally and its last two widgets are the error box of the
    missing key and the setup instructions. *)
Definition shows_setup_instructions (w : World) : Prop :=
  fst (run_main w) = Finished /\
  exists before,
    snd (run_main w) =
    before ++
    [Ui [] (ErrorBox (py "❌ GROQ_API_KEY not found in Streamlit secrets"));
     Ui [] (Markdown setup_instructions)].

(** ** Stub worlds *)

Fixpoint pystr_eqb (a b : pystr) : bool :=
  match a, b with
  | [], [] => true
  | x :: a', y :: b' => (x =? y)%N && pystr_eqb a' b'
  | _, _ => false
  end.

(** A world whose secrets store answers [key], whose constructor answers
    [ctor], whose prompt box holds [prompt], whose trigger is [pressed] and
    whose sliders stand at their initial values. *)
Definition stub_world (key : outcome value) (ctor : outcome GroqLLM)
           (prompt : pystr) (pressed : bool) : World :=
  {| secrets_get := fun _ => key;
     GroqLLM_init := fun _ _ => ctor;
     text_area_value := fun _ _ => prompt;
     button_clicked := fun _ => pressed;
     slider_value := fun _ _ _ initial _ => initial |}.

Definition TypeError : exn :=
  {| isinstance_Exception := true; exn_str := Str (py "unexpected arguments") |}.

Definition ConnectionError : exn :=
  {| isinstance_Exception := true; exn_str := Str (py "Connection error.") |}.

(** [KeyboardInterrupt] derives from [BaseException] only; its text is
    empty. *)
Definition KeyboardInterrupt : exn :=
  {| isinstance_Exception := false; exn_str := Str [] |}.

(** What [st.secrets.get] raises when there is no secrets file at all, with
    the text Streamlit gives it. *)
Definition FileNotFoundError (text : pystr) : exn :=
  {| isinstance_Exception := true; exn_str := Str text |}.

(** An instance of [Exception] whose [__str__] raises [e]. *)
Definition unprintable (e : exn) : exn :=
  {| isinstance_Exception := true; exn_str := StrRaises e |}.

Definition hello_response : LLMResponse :=
  {| content := py "Hello";
     model := py "m1";
     usage := VDict [(py "tokens", VNum (PyInt 5))];
     metadata := VDict [] |}.

(** The stub whose [generate("Hi")] returns [hello_response]. *)
Definition hello_llm : GroqLLM :=
  {| is_available := Returns true;
     generate := fun args kw =>
       match args, kw with
       | [VStr s], [] =>
           if pystr_eqb s (py "Hi") then Returns hello_response
           else Raises TypeError
       | _, _ => Raises TypeError
       end |}.

(** A ready client that answers every prompt by repeating it. *)
Definition echo_llm : GroqLLM :=
  {| is_available := Returns true;
     generate := fun args _ =>
       match args with
       | [VStr s] =>
           Returns {| content := s; model := py "echo";
                      usage := VDict []; metadata := VDict [] |}
       | _ => Raises TypeError
       end |}.

(** A client that is not ready. *)
Definition offline_llm : GroqLLM :=
  {| is_available := Returns false;
     generate := fun _ _ => Raises ConnectionError |}.

(** A ready client whose [generate] raises [e]. *)
Definition failing_llm (e : exn) : GroqLLM :=
  {| is_available := Returns true;
     generate := fun _ _ => Raises e |}.

Definition some_key : value := VStr (py "gsk_test").

(** The stub of the specification, with the prompt "Hi" and the trigger
    pressed. *)
Definition hello_world : World :=
  stub_world (Returns some_key) (Returns hello_llm) (py "Hi") true.

(** A press on a prompt of two spaces. *)
Definition blank_world : World :=
  stub_world (Returns some_key) (Returns echo_llm) (py "  ") true.

(** A press on a prompt with spaces around it. *)
Definition padded_world : World :=
  stub_world (Returns some_key) (Returns echo_llm) (py "  Hi  ") true.

(** A render without interaction. *)
Definition idle_world : World :=
  stub_world (Returns some_key) (Returns echo_llm) default_prompt false.

(** The key is not in the secrets store. *)
Definition no_key_world : World :=
  stub_world (Returns VNone) (Returns echo_llm) default_prompt true.

Definition offline_world : World :=
  stub_world (Returns some_key) (Returns offline_llm) default_prompt true.

(** A press whose [generate] call raises [e]. *)
Definition failing_world (e : exn) : World :=
  stub_world (Returns some_key) (Returns (failing_llm e)) (py "Hi") true.

(** There is no secrets file: the lookup of the key raises. *)
Definition no_secrets_file_world : World :=
  stub_world (Raises (FileNotFoundError (py "No secrets found.")))
    (Returns echo_llm) default_prompt true.

(** Two renders that differ in the key only. *)
Definition key_world (key : pystr) : World :=
  stub_world (Returns (VStr key)) (Returns echo_llm) (py "Hi") true.

(** The key is absent or empty: the lookup returns [None] or the empty
    string, or there is no secrets file and the lookup raises. *)
Definition key_absent_or_empty (w : World) : Prop :=
  secrets_get w GROQ_API_KEY = Returns VNone \/
  secrets_get w GROQ_API_KEY = Returns (VStr []) \/
  exists text, secrets_get w GROQ_API_KEY = Raises (FileNotFoundError text).

(** ** More ways to read a trace *)

(** All the calls of a trace, in order. *)
Fixpoint calls (t : trace) : list call :=
  match t with
  | [] => []
  | Ext _ c :: t' => c :: calls t'
  | Ui _ _ :: t' => calls t'
  end.

(** What the key lookup returned; [None] when it raised. *)
Definition key_of (w : World) : value :=
  match secrets_get w GROQ_API_KEY with
  | Returns k => k
  | Raises _ => VNone
  end.

(** The calls of the longest run, in the order [main] makes them. *)
Definition call_sequence (w : World) : list call :=
  [SecretsGet GROQ_API_KEY;
   Construct [] [(py "api_key", key_of w)];
   IsAvailable;
   Generate [VStr (user_prompt w)] []].

(** The widgets above the [try] block. *)
Definition header : trace :=
  [Ui [] (Title (py "🚀 Groq LLM Integration Demo"));
   Ui [] (Markdown (py "---"));
   Ui [] (Subheader (py "🔐 Secure API Key Management"));
   Ui [] (InfoBox info_text)].

(** The settings column and the code panel, which end a complete render. *)
Definition footer (w : World) : trace :=
  [Ui [Column 1] (Subheader (py "⚙️ Settings"));
   Ui [Column 1] (temperature_slider w);
   Ui [Column 1] (max_tokens_slider w);
   Ui [] (Subheader (py "📝 Implementation Code"));
   Ui [] (Expander (py "View the secure implementation"));
   Ui [InExpander (py "View the secure implementation")]
     (Code implementation_code (py "python"));
   Ui [InExpander (py "View the secure implementation")]
     (Markdown (py "**Secrets setup (.streamlit/secrets.toml):**"));
   Ui [InExpander (py "View the secure implementation")]
     (Code secrets_sample (py "toml"));
   Ui [InExpander (py "View the secure implementation")]
     (Markdown (py "**Gitignore entry:**"));
   Ui [InExpander (py "View the secure implementation")]
     (Code (py ".streamlit/secrets.toml") (py "text"))].

(** Whether some event of the trace passes the test [f]. *)
Fixpoint occurs (f : event -> bool) (t : trace) : bool :=
  match t with
  | [] => false
  | e :: t' => if f e then true else occurs f t'
  end.

Definition is_warning (e : event) : bool :=
  match e with Ui _ (WarningBox _) => true | _ => false end.

Definition is_code (e : event) : bool :=
  match e with Ui _ (Code _ _) => true | _ => false end.

(** The widgets that show a response: [st.write] and [st.json]. *)
Definition is_response (e : event) : bool :=
  match e with
  | Ui _ (Written _) | Ui _ (Json _) => true
  | _ => false
  end.

(** What [st.write] was given, with its place, in order. *)
Fixpoint writes (t : trace) : list (path * value) :=
  match t with
  | [] => []
  | Ui p (Written v) :: t' => (p, v) :: writes t'
  | _ :: t' => writes t'
  end.

(** What [st.json] was given, with its place, in order. *)
Fixpoint jsons (t : trace) : list (path * value) :=
  match t with
  | [] => []
  | Ui p (Json v) :: t' => (p, v) :: jsons t'
  | _ :: t' => jsons t'
  end.

(** The trace without its slider widgets. *)
Fixpoint without_sliders (t : trace) : trace :=
  match t with
  | [] => []
  | Ui _ (Slider _ _ _ _ _ _) :: t' => without_sliders t'
  | e :: t' => e :: without_sliders t'
  end.

(** ** The script *)

(** The statements of the module around [main]: the imports, the entry
    appended to [sys.path] and the guarded call of [main].  [sys.path]
    belongs to the interpreter and outlives a run of the script. *)
Section Script.

(** [os.path.dirname] and [os.path.join], which depend on the platform. *)
Variable dirname : pystr -> pystr.
Variable join : pystr -> pystr -> pystr.

(** One run of the script: its [__file__] and [__name__], what the imports
    of [streamlit], [sys] and [os] do, what the import of [GroqLLM] does
    given the search path, and the world [main] renders in. *)
Record Run : Type := {
  __file__ : pystr;
  __name__ : pystr;
  import_streamlit : option exn;
  import_GroqLLM : list pystr -> option exn;
  world : World
}.

Definition script (r : Run) (sys_path : list pystr)
  : list pystr * (ending * trace) :=
  match import_streamlit r with
  | Some e => (sys_path, (Escaped e, []))
  | None =>
      let sys_path := sys_path ++ [join (dirname (__file__ r)) (py "src")] in
      match import_GroqLLM r sys_path with
      | Some e => (sys_path, (Escaped e, []))
      | None =>
          if pystr_eqb (__name__ r) (py "__main__")
          then (sys_path, run_main (world r))
          else (sys_path, (Finished, []))
      end
  end.

(** The runs of the script in one interpreter, one after the other. *)
Fixpoint reruns (rs : list Run) (sys_path : list pystr)
  : list pystr * list (ending * trace) :=
  match rs with
  | [] => (sys_path, [])
  | r :: rs' =>
      let (sys_path', result) := script r sys_path in
      let (sys_path'', results) := reruns rs' sys_path' in
      (sys_path'', result :: results)
  end.

End Script.

(** A run of the script as Streamlit starts it, with imports that succeed. *)
Definition streamlit_run (w : World) : Run :=
  {| __file__ := py "/app/groq_demo.py";
     __name__ := py "__main__";
     import_streamlit := None;
     import_GroqLLM := fun _ => None;
     world := w |}.

Definition ModuleNotFoundError : exn :=
  {| isinstance_Exception := true;
     exn_str := Str (py "No module named 'src.llm_integration'") |}.

(** A run whose import of [GroqLLM] fails. *)
Definition broken_import_run (w : World) : Run :=
  {| __file__ := py "/app/groq_demo.py";
     __name__ := py "__main__";
     import_streamlit := None;
     import_GroqLLM := fun _ => Some ModuleNotFoundError;
     world := w |}.

(** Stand-ins for [os.path.dirname] and [os.path.join] to run the script
    with: the directory of the examples, and the two parts with a slash
    between them. *)
Definition app_dirname (_ : pystr) : pystr := py "/app".

Definition slash_join (a b : pystr) : pystr := a ++ py "/" ++ b.

(** ** Proof tools *)

Ltac unfold_page :=
  lazy beta iota zeta delta
    [run_main main try_except_Exception when bind str
     st.title st.markdown st.subheader st.info st.error st.success
     st.warning st.write st.json st.code st.secrets_get st.text_area
     st.columns st.button st.slider st.spinner st.expander
     GroqLLM_ llm_is_available llm_generate with_ render extcall
     return_ ret app].

Ltac unfold_readers :=
  unfold connected, user_prompt, trigger_pressed, GROQ_API_KEY, renders,
    never in *.

(** Runs the page as far as the answers of the world are known.  The texts
    of the page stay folded. *)
Ltac reduce :=
  lazy beta iota zeta delta
    [fst snd rev app negb orb andb existsb In
     is_generate is_construct is_success is_error is_control
     generate_calls client_ops sliders rendered without_construct
     firstn skipn];
  repeat match goal with
         | |- context [truthy (VStr [])] =>
             change (truthy (VStr [])) with false
         | |- context [truthy (VStr (?c :: ?s))] =>
             change (truthy (VStr (c :: s))) with true
         end;
  lazy beta iota.

(** Follows one path of the page: rewrites with the answers of the world
    that the context fixes. *)
Ltac follow :=
  repeat (reduce;
          match goal with
          | H : _ = _ |- _ => rewrite H
          end);
  reduce.

(** Splits on the answer of the world the page waits for first. *)
Ltac split_innermost x :=
  lazymatch x with
  | context [match ?y with _ => _ end] => split_innermost y
  | _ => destruct x eqn:?
  end.

(** Splits on every answer of the world the page still waits for. *)
Ltac all_paths :=
  repeat (follow;
          match goal with
          | |- context [match ?x with _ => _ end] => split_innermost x
          end);
  follow.

(** Reads a computed trace with the readers above. *)
Ltac read :=
  lazy beta iota zeta delta
    [calls writes jsons without_sliders occurs existsb orb
     is_warning is_code is_response is_generate is_construct is_success
     is_error is_control generate_calls sliders
     firstn skipn app In fst snd header footer];
  lazy beta iota.

(** Closes a fact of the world with what was found along the path. *)
Ltac found := first [reflexivity | eassumption].

(** Rebuilds [connected] from the answers found along a path. *)
Ltac show_connected :=
  eexists; split; [found|]; split; [found|]; split; found.

(** A prompt whose trimmed text passed the truth test does not trim to
    nothing, and one whose trimmed text failed it does. *)
Ltac show_not_blank :=
  let E := fresh "E" in
  intro E;
  match goal with
  | H : truthy (VStr (strip _)) = true |- _ => rewrite E in H; discriminate H
  end.

Ltac show_blank :=
  match goal with
  | H : truthy (VStr (strip ?s)) = false |- _ =>
      destruct (strip s); [reflexivity | discriminate H]
  end.

(** Rebuilds [raised_in] from the answers found along a path. *)
Ltac show_raised :=
  first
    [ left; found
    | right; eexists; split; [found|]; split; [found|]; left; found
    | right; eexists; split; [found|]; split; [found|];
      right; eexists; split; [found|]; left; found
    | right; eexists; split; [found|]; split; [found|];
      right; eexists; split; [found|]; right;
      split; [found|]; split; [found|]; split; [show_not_blank | found] ].

(** ** Trimming *)

Lemma lstrip_nil_iff (s : pystr) : lstrip s = [] <-> forallb isspace s = true.
Proof.
  induction s as [|c s IH]; cbn.
  - tauto.
  - destruct (isspace c); cbn; [exact IH | split; discriminate].
Qed.

Lemma forallb_rev {A} (f : A -> bool) (l : list A) :
  forallb f (rev l) = forallb f l.
Proof.
  induction l as [|a l IH]; cbn; [reflexivity|].
  rewrite forallb_app, IH. cbn. rewrite andb_true_r. apply andb_comm.
Qed.

Lemma lstrip_suffix (s : pystr) : exists pre, s = pre ++ lstrip s /\ forallb isspace pre = true.
Proof.
  induction s as [|c s [pre [E F]]]; cbn.
  - exists []. split; reflexivity.
  - destruct (isspace c) eqn:Hc.
    + exists (c :: pre). cbn. rewrite Hc, F. split; [f_equal; exact E | reflexivity].
    + exists []. split; reflexivity.
Qed.

(** A prompt trims to nothing exactly when it is empty or all whitespace. *)
Lemma strip_nil_iff (s : pystr) : strip s = [] <-> forallb isspace s = true.
Proof.
  unfold strip, rstrip. split.
  - intro H. apply (f_equal (@rev N)) in H. rewrite rev_involutive in H.
    cbn in H. apply lstrip_nil_iff in H. rewrite forallb_rev in H.
    destruct (lstrip_suffix s) as [pre [E F]]. rewrite E, forallb_app, F, H.
    reflexivity.
  - intro H. apply lstrip_nil_iff in H. rewrite H. reflexivity.
Qed.

(** ** The model on concrete inputs *)

Example py_decodes_utf8 :
  py "❌ ok" = [10060; 32; 111; 107]%N /\ py "⚙️" = [9881; 65039]%N.
Proof. split; reflexivity. Qed.

Example strip_keeps_inner_space : strip (py "  a b  ") = py "a b".
Proof. reflexivity. Qed.

(** Tab, line feed, no-break space and ideographic space are whitespace. *)
Example strip_unicode_space : strip [9; 10; 160; 12288]%N = [].
Proof. reflexivity. Qed.

(** The whole run of the stub of the specification, event by event. *)
Example hello_world_run :
  run_main hello_world =
  (Finished,
   [Ui [] (Title (py "🚀 Groq LLM Integration Demo"));
    Ui [] (Markdown (py "---"));
    Ui [] (Subheader (py "🔐 Secure API Key Management"));
    Ui [] (InfoBox info_text);
    Ext [] (SecretsGet (py "GROQ_API_KEY"));
    Ext [] (Construct [] [(py "api_key", some_key)]);
    Ext [] IsAvailable;
    Ui [] (SuccessBox (py "✅ Groq LLM Successfully Connected!"));
    Ui [] (Subheader (py "💬 Try the LLM"));
    Ui [] (TextArea (py "Enter your prompt:") default_prompt 100 (py "Hi"));
    Ui [] (Columns [1; 3]%Z);
    Ui [Column 0] (Button (py "🎯 Generate Response") (py "primary") true);
    Ui [Column 0] (Spinner (py "Generating response..."));
    Ext [Column 0; InSpinner (py "Generating response...")]
      (Generate [VStr (py "Hi")] []);
    Ui [Column 0] (Subheader (py "🤖 Response"));
    Ui [Column 0] (Written (VStr (py "Hello")));
    Ui [Column 0] (Expander (py "📊 Response Details"));
    Ui [Column 0; InExpander (py "📊 Response Details")]
      (Json (VDict [(py "model", VStr (py "m1"));
                    (py "usage", VDict [(py "tokens", VNum (PyInt 5))]);
                    (py "metadata", VDict [])]));
    Ui [Column 1] (Subheader (py "⚙️ Settings"));
    Ui [Column 1] (temperature_slider hello_world);
    Ui [Column 1] (max_tokens_slider hello_world);
    Ui [] (Subheader (py "📝 Implementation Code"));
    Ui [] (Expander (py "View the secure implementation"));
    Ui [InExpander (py "View the secure implementation")]
      (Code implementation_code (py "python"));
    Ui [InExpander (py "View the secure implementation")]
      (Markdown (py "**Secrets setup (.streamlit/secrets.toml):**"));
    Ui [InExpander (py "View the secure implementation")]
      (Code secrets_sample (py "toml"));
    Ui [InExpander (py "View the secure implementation")]
      (Markdown (py "**Gitignore entry:**"));
    Ui [InExpander (py "View the secure implementation")]
      (Code (py ".streamlit/secrets.toml") (py "text"))]).
Proof. vm_compute. reflexivity. Qed.

(** A press on a blank prompt: the warning, then the settings and the code
    panel as in every connected render. *)
Example blank_world_calls :
  client_ops (snd (run_main blank_world)) = [IsAvailable] /\
  fst (run_main blank_world) = Finished.
Proof. split; reflexivity. Qed.


(** ** The key is missing *)

(** C2, as stated, fails: when there is no secrets file the key is absent,
    but the lookup raises instead of returning nothing; the handler of
    [main] then shows the generic error and the list of common issues, not
    the setup instructions. *)
Lemma no_secrets_file_shows_generic_error :
  key_absent_or_empty no_secrets_file_world /\
  caught_and_reported no_secrets_file_world (py "No secrets found.") /\
  ~ shows_setup_instructions no_secrets_file_world /\
  ~ (forall w, key_absent_or_empty w -> shows_setup_instructions w).
Proof.
  assert (A : key_absent_or_empty no_secrets_file_world).
  { right. right. exists (py "No secrets found."). reflexivity. }
  assert (N : ~ shows_setup_instructions no_secrets_file_world).
  { intros [_ [before E]]. apply (f_equal (@rev event)) in E.
    rewrite rev_app_distr in E. vm_compute in E. discriminate E. }
  split; [exact A | split; [|split; [exact N|]]].
  - split; [reflexivity|].
    match goal with
    | |- exists before, ?L = _ => exists (firstn 5 L)
    end.
    reflexivity.
  - intro H. exact (N (H _ A)).
Qed.

(** C2, amended.  When the key is absent or empty the run ends normally and
    the client is never constructed nor called.  When the lookup returns
    ([None] or the empty string) the last two widgets are the error box of
    the missing key and the setup instructions; when there is no secrets
    file and the lookup raises, they are the generic error box with the text
    of the exception and the list of common issues. *)
Theorem missing_key_stops_before_client (w : World) :
  key_absent_or_empty w ->
  fst (run_main w) = Finished /\
  never is_construct (snd (run_main w)) /\
  never is_generate (snd (run_main w)) /\
  client_ops (snd (run_main w)) = [] /\
  ((exists k, secrets_get w GROQ_API_KEY = Returns k) ->
   shows_setup_instructions w) /\
  (forall text,
     secrets_get w GROQ_API_KEY = Raises (FileNotFoundError text) ->
     caught_and_reported w text).
Proof.
  unfold key_absent_or_empty, shows_setup_instructions, caught_and_reported.
  intros [Hk | [Hk | [text Hk]]];
    try (assert (He : isinstance_Exception (FileNotFoundError text) = true)
           by reflexivity;
         assert (Hs : exn_str (FileNotFoundError text) = Str text)
           by reflexivity);
    unfold_readers; unfold_page; follow;
    (split; [reflexivity|]); (split; [reflexivity|]);
    (split; [reflexivity|]); (split; [reflexivity|]); split.
  - intros _. split; [reflexivity|].
    match goal with
    | |- exists before, ?L = _ => exists (firstn 5 L)
    end.
    reflexivity.
  - intros text H. discriminate H.
  - intros _. split; [reflexivity|].
    match goal with
    | |- exists before, ?L = _ => exists (firstn 5 L)
    end.
    reflexivity.
  - intros text H. discriminate H.
  - intros [k H]. discriminate H.
  - intros text' H. injection H as <-. split; [reflexivity|].
    match goal with
    | |- exists before, ?L = _ => exists (firstn 5 L)
    end.
    reflexivity.
Qed.

Lemma missing_key_stops_before_client_witness :
  key_absent_or_empty no_key_world /\
  shows_setup_instructions no_key_world /\
  never is_construct (snd (run_main no_key_world)).
Proof.
  assert (A : key_absent_or_empty no_key_world) by (left; reflexivity).
  pose proof (@missing_key_stops_before_client no_key_world A) as H.
  split; [exact A | split].
  - apply (proj1 (proj2 (proj2 (proj2 (proj2 H))))).
    exists VNone. reflexivity.
  - exact (proj1 (proj2 H)).
Defined.

(** ** The client is not ready *)

(** C5.  With a key that is there and a client that was built, when
    [is_available()] answers [False] the run ends by a plain return right
    after the error box: the trace is the heading, the three calls and the
    error, with no success box, no control and no [generate] call. *)
Theorem unavailable_client_stops (w : World) (k : value) (llm : GroqLLM) :
  secrets_get w GROQ_API_KEY = Returns k ->
  truthy k = true ->
  GroqLLM_init w [] [(py "api_key", k)] = Returns llm ->
  is_available llm = Returns false ->
  fst (run_main w) = Finished /\
  (exists before,
     snd (run_main w) =
     before ++ [Ext [] IsAvailable;
                Ui [] (ErrorBox (py "❌ Groq LLM is not available"))]) /\
  never is_success (snd (run_main w)) /\
  never is_control (snd (run_main w)) /\
  never is_generate (snd (run_main w)).
Proof.
  intros Hk Ht Hc Ha. unfold_readers. unfold_page. follow.
  repeat split.
  eexists.
  change (?a :: ?b :: ?c :: ?d :: ?e :: ?f :: ?l) with ([a; b; c; d; e; f] ++ l).
  reflexivity.
Qed.

Lemma unavailable_client_stops_witness :
  never is_control
    (snd (run_main offline_world)).
Proof.
  exact (proj1 (proj2 (proj2 (proj2
    (@unavailable_client_stops
       offline_world
       some_key offline_llm eq_refl eq_refl eq_refl eq_refl))))).
Defined.

(** ** The trigger *)

(** C1.  A prompt that trims to nothing never reaches the client, whatever
    the world; and when the page is connected and the trigger is pressed on
    such a prompt, the warning is shown in the first column and the run ends
    normally. *)
Theorem blank_prompt_warns (w : World) :
  strip (user_prompt w) = [] ->
  never is_generate (snd (run_main w)) /\
  (forall llm, connected w llm -> trigger_pressed w = true ->
     fst (run_main w) = Finished /\
     renders (snd (run_main w)) [Column 0]
       (WarningBox (py "Please enter a prompt first!"))).
Proof.
  intro Hblank. split.
  - unfold_readers. unfold_page. all_paths; reflexivity.
  - intros llm (k & Hk & Ht & Hc & Ha) Hp.
    unfold_readers. unfold_page. follow.
    split; [reflexivity | tauto].
Qed.

Lemma blank_prompt_warns_witness :
  renders
    (snd (run_main blank_world))
    [Column 0] (WarningBox (py "Please enter a prompt first!")).
Proof.
  refine (proj2 (proj2 (@blank_prompt_warns
            blank_world
            eq_refl) echo_llm _ eq_refl)).
  exists some_key. repeat split.
Defined.


(** ** A response *)

(** C4.  On a connected page, pressing the trigger on a prompt that does not
    trim to nothing, with a client whose [generate] returns [r] for it,
    writes the content of [r] in the first column and, inside the expander
    "Response Details" there, the JSON object of the model, the usage and
    the metadata of [r]; the run ends normally. *)
Theorem response_is_displayed (w : World) (llm : GroqLLM) (r : LLMResponse) :
  connected w llm ->
  trigger_pressed w = true ->
  strip (user_prompt w) <> [] ->
  generate llm [VStr (user_prompt w)] [] = Returns r ->
  fst (run_main w) = Finished /\
  renders (snd (run_main w)) [Column 0] (Written (VStr (content r))) /\
  renders (snd (run_main w)) [Column 0] (Expander (py "📊 Response Details")) /\
  renders (snd (run_main w)) [Column 0; InExpander (py "📊 Response Details")]
    (Json (VDict [(py "model", VStr (model r));
                  (py "usage", usage r);
                  (py "metadata", metadata r)])).
Proof.
  intros (k & Hk & Ht & Hc & Ha) Hp Hn Hg.
  unfold_readers. unfold_page. follow.
  destruct (strip (text_area_value w (py "Enter your prompt:") default_prompt))
    as [|c s] eqn:Hs; [congruence|].
  follow. repeat split; tauto.
Qed.

(** The stub of the specification: [generate("Hi")] returns content "Hello",
    model "m1", usage [{tokens: 5}] and empty metadata. *)
Lemma response_is_displayed_witness :
  renders (snd (run_main hello_world)) [Column 0] (Written (VStr (py "Hello"))) /\
  renders (snd (run_main hello_world))
    [Column 0; InExpander (py "📊 Response Details")]
    (Json (VDict [(py "model", VStr (py "m1"));
                  (py "usage", VDict [(py "tokens", VNum (PyInt 5))]);
                  (py "metadata", VDict [])])).
Proof.
  assert (C : connected hello_world hello_llm)
    by (exists some_key; repeat split).
  assert (N : strip (user_prompt hello_world) <> [])
    by (vm_compute; discriminate).
  pose proof (@response_is_displayed hello_world hello_llm hello_response
                C eq_refl N eq_refl) as H.
  split; [exact (proj1 (proj2 H)) | exact (proj2 (proj2 (proj2 H)))].
Defined.

(** ** What reaches the client *)

(** On a connected page, a press on a prompt that does not trim to nothing
    makes exactly one [generate] call: the text of the prompt box as the
    only positional argument and no keyword argument. *)
Lemma generate_called_once (w : World) (llm : GroqLLM) :
  connected w llm ->
  trigger_pressed w = true ->
  strip (user_prompt w) <> [] ->
  generate_calls (snd (run_main w)) = [([VStr (user_prompt w)], [])].
Proof.
  intros (k & Hk & Ht & Hc & Ha) Hp Hn.
  unfold_readers. unfold_page. follow.
  destruct (strip (text_area_value w (py "Enter your prompt:") default_prompt))
    as [|c s] eqn:Hs; [congruence|].
  all_paths; reflexivity.
Qed.


(** C6.  On a connected page, a press on a prompt that does not trim to
    nothing makes exactly one [generate] call, with the prompt as its only
    argument and no keyword argument.  No slider has been read when the call
    is made, the call is the same whatever the sliders stand at, and when it
    returns, the temperature and the max-token sliders are read after it. *)
Theorem sliders_not_forwarded (w : World) (llm : GroqLLM) :
  connected w llm ->
  trigger_pressed w = true ->
  strip (user_prompt w) <> [] ->
  generate_calls (snd (run_main w)) = [([VStr (user_prompt w)], [])] /\
  (forall sv,
     generate_calls (snd (run_main (with_sliders w sv))) =
     generate_calls (snd (run_main w))) /\
  (exists before after,
     snd (run_main w) =
     before ++
     Ext [Column 0; InSpinner (py "Generating response...")]
       (Generate [VStr (user_prompt w)] []) :: after /\
     sliders before = [] /\
     (forall r, generate llm [VStr (user_prompt w)] [] = Returns r ->
        sliders after = [temperature_slider w; max_tokens_slider w])).
Proof.
  intros C Hp Hn. split; [|split].
  - exact (generate_called_once C Hp Hn).
  - intro sv. rewrite (generate_called_once C Hp Hn).
    apply (@generate_called_once (with_sliders w sv) llm); assumption.
  - destruct C as (k & Hk & Ht & Hc & Ha).
    unfold_readers. unfold temperature_slider, max_tokens_slider.
    unfold_page. follow.
    destruct (strip (text_area_value w (py "Enter your prompt:") default_prompt))
      as [|c s] eqn:Hs; [congruence|].
    follow.
    destruct (generate llm
                [VStr (text_area_value w (py "Enter your prompt:") default_prompt)]
                []) as [r|e] eqn:Hg;
      all_paths;
      match goal with
      | |- exists t1 t2, ?L = _ /\ _ =>
          exists (firstn 13 L), (skipn 14 L)
      end;
      reduce;
      (split; [reflexivity | split; [reflexivity|]]);
      intros r' Hr; solve [discriminate Hr | reflexivity].
Qed.

Lemma sliders_not_forwarded_witness :
  generate_calls
    (snd (run_main hello_world))
  = [([VStr (py "Hi")], [])].
Proof.
  assert (C : connected hello_world hello_llm)
    by (exists some_key; repeat split).
  assert (N : strip (user_prompt hello_world) <> [])
    by (vm_compute; discriminate).
  exact (proj1 (@sliders_not_forwarded _ hello_llm C eq_refl N)).
Defined.

(** C9.  Trimming only decides whether the prompt counts as empty: the one
    [generate] call gets the text of the prompt box as it was entered, and
    when trimming would change that text, the trimmed text is not what is
    passed. *)
Theorem prompt_forwarded_untrimmed (w : World) (llm : GroqLLM) :
  connected w llm ->
  trigger_pressed w = true ->
  strip (user_prompt w) <> [] ->
  generate_calls (snd (run_main w)) = [([VStr (user_prompt w)], [])] /\
  (strip (user_prompt w) <> user_prompt w ->
   ~ In ([VStr (strip (user_prompt w))], [])
        (generate_calls (snd (run_main w)))).
Proof.
  intros C Hp Hn. split.
  - exact (generate_called_once C Hp Hn).
  - intros Hd Hin. rewrite (generate_called_once C Hp Hn) in Hin.
    destruct Hin as [Heq | []]. apply Hd.
    injection Heq as Heq. symmetry. exact Heq.
Qed.

Lemma prompt_forwarded_untrimmed_witness :
  generate_calls
    (snd (run_main padded_world))
  = [([VStr (py "  Hi  ")], [])] /\
  strip (py "  Hi  ") = py "Hi".
Proof.
  assert (C : connected padded_world echo_llm)
    by (exists some_key; repeat split).
  assert (N : strip (user_prompt padded_world) <> [])
    by (vm_compute; discriminate).
  split; [exact (proj1 (@prompt_forwarded_untrimmed _ echo_llm C eq_refl N))
         | reflexivity].
Defined.

(** ** No press *)

(** C7.  In a run in which the trigger is not pressed, [generate] is never
    called: the operations invoked on the client are none or the one
    availability check. *)
Theorem no_press_no_generate (w : World) :
  trigger_pressed w = false ->
  never is_generate (snd (run_main w)) /\
  (client_ops (snd (run_main w)) = [] \/
   client_ops (snd (run_main w)) = [IsAvailable]).
Proof.
  intro Hp. unfold_readers. unfold_page.
  all_paths; (split; [reflexivity | first [left; reflexivity | right; reflexivity]]).
Qed.

Lemma no_press_no_generate_witness :
  client_ops
    (snd (run_main idle_world))
  = [IsAvailable].
Proof.
  destruct (proj2 (@no_press_no_generate
                     idle_world eq_refl)) as [H | H].
  - discriminate H.
  - exact H.
Defined.


(** ** The settings *)

Lemma slider_in_sliders (t : trace) (p : path) (x : widget) :
  In (Ui p x) t ->
  match x with Slider _ _ _ _ _ _ => In x (sliders t) | _ => True end.
Proof.
  destruct x; try exact (fun _ => I).
  induction t as [|e t IH]; cbn [In]; [tauto|].
  intros [He | Hin].
  - subst e. left. reflexivity.
  - specialize (IH Hin).
    destruct e as [q [ | | | | | | | | | | | | | | | ]|q c];
      cbn [sliders In]; tauto.
Qed.

(** Whatever the world, a run renders no slider or the two sliders of the
    settings column. *)
Lemma sliders_of_page (w : World) :
  sliders (snd (run_main w)) = [] \/
  sliders (snd (run_main w)) = [temperature_slider w; max_tokens_slider w].
Proof.
  unfold temperature_slider, max_tokens_slider. unfold_page.
  all_paths; first [left; reflexivity | right; reflexivity].
Qed.

(** X14.  Every slider a run renders is one of the two settings, with the
    arguments [main] passes: the temperature with bounds 0.0 and 1.0,
    initial value 0.3 and step 0.1, or the max tokens with bounds 50 and
    1000, initial value 500 and step 50.  The initial value lies within the
    bounds, and the value shown is the one [st.slider] returned: [main]
    neither checks nor changes it. *)
Theorem slider_arguments (w : World) (p : path) (label : pystr)
        (lo hi initial step current : number) :
  renders (snd (run_main w)) p (Slider label lo hi initial step current) ->
  num_le lo initial = true /\ num_le initial hi = true /\
  ((label = py "Temperature" /\ lo = PyFloat 0.0 /\ hi = PyFloat 1.0 /\
    initial = PyFloat 0.3 /\ step = PyFloat 0.1 /\
    current = slider_value w label lo hi initial step) \/
   (label = py "Max Tokens" /\ lo = PyInt 50 /\ hi = PyInt 1000 /\
    initial = PyInt 500 /\ step = PyInt 50 /\
    current = slider_value w label lo hi initial step)).
Proof.
  intro Hin. apply slider_in_sliders in Hin.
  destruct (sliders_of_page w) as [E | E]; rewrite E in Hin.
  - destruct Hin.
  - unfold temperature_slider, max_tokens_slider in Hin.
    destruct Hin as [H | [H | []]]; injection H as <- <- <- <- <- <-.
    + split; [reflexivity | split; [reflexivity | left; repeat split]].
    + split; [reflexivity | split; [reflexivity | right; repeat split]].
Qed.

Lemma slider_arguments_witness :
  renders (snd (run_main idle_world)) [Column 1]
    (temperature_slider idle_world) /\
  num_le (PyFloat 0.0) (PyFloat 0.3) = true /\
  num_le (PyFloat 0.3) (PyFloat 1.0) = true.
Proof.
  assert (R : renders (snd (run_main idle_world)) [Column 1]
                (temperature_slider idle_world)).
  { unfold renders. vm_compute.
    repeat (first [left; reflexivity | right]). }
  pose proof (@slider_arguments idle_world [Column 1] _ _ _ _ _ _ R) as H.
  split; [exact R | split; [exact (proj1 H) | exact (proj1 (proj2 H))]].
Defined.

(** ** The key *)

(** C10.  Two renders whose keys are both there and non-empty, whose
    constructors answer alike and whose widgets stand alike end the same way
    and show the same page: the traces differ at most in the constructor
    call, the one event that carries the key. *)
Theorem key_value_does_not_show (w1 w2 : World) (k1 k2 : value) :
  secrets_get w1 GROQ_API_KEY = Returns k1 ->
  secrets_get w2 GROQ_API_KEY = Returns k2 ->
  truthy k1 = true ->
  truthy k2 = true ->
  GroqLLM_init w1 [] [(py "api_key", k1)] =
  GroqLLM_init w2 [] [(py "api_key", k2)] ->
  text_area_value w1 = text_area_value w2 ->
  button_clicked w1 = button_clicked w2 ->
  slider_value w1 = slider_value w2 ->
  fst (run_main w1) = fst (run_main w2) /\
  rendered (snd (run_main w1)) = rendered (snd (run_main w2)) /\
  without_construct (snd (run_main w1)) = without_construct (snd (run_main w2)).
Proof.
  intros Hk1 Hk2 Ht1 Ht2 Hc Hta Hb Hs.
  unfold_readers. unfold_page.
  all_paths; repeat split.
Qed.

Lemma key_value_does_not_show_witness :
  rendered (snd (run_main (key_world (py "gsk_one"))))
  = rendered (snd (run_main (key_world (py "gsk_other")))).
Proof.
  exact (proj1 (proj2 (@key_value_does_not_show
    (key_world (py "gsk_one"))
    (key_world (py "gsk_other"))
    (VStr (py "gsk_one")) (VStr (py "gsk_other"))
    eq_refl eq_refl eq_refl eq_refl eq_refl eq_refl eq_refl eq_refl))).
Defined.


(** ** Exceptions *)

(** C3, as stated, fails: [except Exception] lets through what is not an
    instance of [Exception].  A [KeyboardInterrupt] raised by [generate] is
    an exception raised during generation; it leaves [main], and neither the
    error box nor the list of common issues is rendered. *)
Lemma interrupt_escapes_main :
  raised_in (failing_world KeyboardInterrupt) KeyboardInterrupt /\
  fst (run_main (failing_world KeyboardInterrupt)) = Escaped KeyboardInterrupt /\
  never is_error (snd (run_main (failing_world KeyboardInterrupt))) /\
  ~ (forall w e, raised_in w e -> fst (run_main w) = Finished).
Proof.
  assert (R : raised_in (failing_world KeyboardInterrupt) KeyboardInterrupt).
  { right. exists some_key. split; [reflexivity|]. split; [reflexivity|].
    right. exists (failing_llm KeyboardInterrupt). split; [reflexivity|].
    right. repeat split. vm_compute. discriminate. }
  split; [exact R | split; [reflexivity | split; [reflexivity|]]].
  intro H. specialize (H _ _ R). discriminate H.
Qed.

(** The handler itself can fail: [str(e)] is called inside the [except]
    block, outside any [try].  An instance of [Exception] whose [__str__]
    raises is caught, and what its [__str__] raised leaves [main] before the
    error box is rendered. *)
Lemma unprintable_exception_escapes_main :
  raised_in (failing_world (unprintable ConnectionError))
    (unprintable ConnectionError) /\
  isinstance_Exception (unprintable ConnectionError) = true /\
  fst (run_main (failing_world (unprintable ConnectionError)))
  = Escaped ConnectionError /\
  never is_error (snd (run_main (failing_world (unprintable ConnectionError)))).
Proof.
  split; [|split; [reflexivity | split; reflexivity]].
  right. exists some_key. split; [reflexivity|]. split; [reflexivity|].
  right. exists (failing_llm (unprintable ConnectionError)).
  split; [reflexivity|].
  right. repeat split. vm_compute. discriminate.
Qed.

(** C3, amended.  An instance of [Exception] whose text [str(e)] can be
    formed, raised by the key lookup, by the constructor, by the
    availability check or by the generation, is caught in [main]: the run
    ends normally and its last two widgets are the error box with the text
    of the exception and the fixed list of common issues.  In the render in
    which generation is attempted, the prompt box and the trigger were
    rendered before the call and are on the page with the error. *)
Theorem exception_is_reported (w : World) (e : exn) (text : pystr) :
  raised_in w e ->
  isinstance_Exception e = true ->
  exn_str e = Str text ->
  caught_and_reported w text /\
  (forall llm,
     connected w llm ->
     trigger_pressed w = true ->
     strip (user_prompt w) <> [] ->
     renders (snd (run_main w)) []
       (TextArea (py "Enter your prompt:") default_prompt 100 (user_prompt w)) /\
     renders (snd (run_main w)) [Column 0]
       (Button (py "🎯 Generate Response") (py "primary") true)).
Proof.
  intros Hr He Hs. split.
  - unfold caught_and_reported.
    destruct Hr as [Hk | (k & Hk & Ht & [Hc | (llm & Hc & [Ha | (Ha & Hp & Hn & Hg)])])];
      unfold_readers; unfold_page; follow;
      try (destruct (strip (text_area_value w (py "Enter your prompt:") default_prompt))
             as [|c s] eqn:Hx; [congruence|]; follow);
      (split; [reflexivity|]);
      match goal with
      | |- exists before, ?L = _ =>
          exists (firstn (List.length L - 2) L)
      end;
      reflexivity.
  - clear Hr He Hs. intros llm (k & Hk & Ht & Hc & Ha) Hp Hn.
    unfold_readers. unfold_page. follow.
    destruct (strip (text_area_value w (py "Enter your prompt:") default_prompt))
      as [|c s] eqn:Hx; [congruence|].
    all_paths; split; tauto.
Qed.

Lemma exception_is_reported_witness :
  caught_and_reported (failing_world ConnectionError) (py "Connection error.").
Proof.
  refine (proj1 (@exception_is_reported
            (failing_world ConnectionError) ConnectionError
            (py "Connection error.") _ eq_refl eq_refl)).
  right. exists some_key. split; [reflexivity|]. split; [reflexivity|].
  right. exists (failing_llm ConnectionError). split; [reflexivity|].
  right. repeat split. vm_compute. discriminate.
Defined.

(** ** What every run does *)

(** X1.  Whatever the world, a run starts with the four widgets of the
    heading (title, rule, subheader, information panel) and then looks the
    key up: they are rendered before anything can return or raise. *)
Theorem header_always_first (w : World) :
  exists rest,
    snd (run_main w) = header ++ Ext [] (SecretsGet GROQ_API_KEY) :: rest.
Proof.
  unfold_readers. unfold_page. all_paths; read; eexists; reflexivity.
Qed.

(** X2.  Whatever the world, the calls of a run are a non-empty initial part
    of: the key lookup, the constructor with the looked-up value as its one
    keyword argument [api_key], the availability check, the generation with
    the prompt.  Each is called at most once and none out of order. *)
Theorem calls_in_order (w : World) :
  exists n, calls (snd (run_main w)) = firstn (S n) (call_sequence w).
Proof.
  unfold call_sequence, key_of. unfold_readers. unfold_page.
  all_paths; read;
    first [exists 0%nat; reflexivity | exists 1%nat; reflexivity
          | exists 2%nat; reflexivity | exists 3%nat; reflexivity].
Qed.

(** X3.  The client is constructed exactly when the key lookup returns a
    value that counts as true: a falsy value of any type ([None], the empty
    string, zero, [False], an empty list or table) is taken as a missing
    key. *)
Theorem constructed_iff_truthy_key (w : World) :
  existsb is_construct (snd (run_main w)) = true <->
  exists k, secrets_get w GROQ_API_KEY = Returns k /\ truthy k = true.
Proof.
  split.
  - unfold_readers. unfold_page.
    all_paths; intro H; try discriminate H;
      eexists; split; found.
  - intros (k & Hk & Ht). unfold_readers. unfold_page.
    all_paths; reflexivity.
Qed.

(** X4.  The success box is rendered exactly when the page is connected
    (key there, client built, client ready), and so is some interactive
    control. *)
Theorem success_iff_connected (w : World) :
  (existsb is_success (snd (run_main w)) = true <-> exists llm, connected w llm) /\
  (existsb is_control (snd (run_main w)) = true <-> exists llm, connected w llm).
Proof.
  split; split;
    try (unfold_readers; unfold_page;
         all_paths; intro H; try discriminate H;
         eexists; show_connected);
    intros (llm & k & Hk & Ht & Hc & Ha); unfold_readers; unfold_page;
    all_paths; reflexivity.
Qed.

(** ** The three outcomes of the trigger *)

(** X5.  [generate] is called exactly when the page is connected, the trigger
    is pressed and the prompt does not trim to nothing. *)
Theorem generate_iff (w : World) :
  generate_calls (snd (run_main w)) <> [] <->
  exists llm,
    connected w llm /\ trigger_pressed w = true /\ strip (user_prompt w) <> [].
Proof.
  split.
  - unfold_readers. unfold_page.
    all_paths; intro H; try (exfalso; apply H; reflexivity);
      eexists; (split; [show_connected|]);
      (split; [found | show_not_blank]).
  - intros (llm & C & Hp & Hn).
    rewrite (generate_called_once C Hp Hn). discriminate.
Qed.

(** X6.  The warning is rendered exactly when the page is connected, the
    trigger is pressed and the prompt trims to nothing. *)
Theorem warning_iff (w : World) :
  occurs is_warning (snd (run_main w)) = true <->
  exists llm,
    connected w llm /\ trigger_pressed w = true /\ strip (user_prompt w) = [].
Proof.
  split.
  - unfold_readers. unfold_page.
    all_paths; read; intro H; try discriminate H;
      eexists; (split; [show_connected|]);
      (split; [found | show_blank]).
  - intros (llm & (k & Hk & Ht & Hc & Ha) & Hp & Hn).
    unfold_readers. unfold_page. follow. read. reflexivity.
Qed.

(** X7.  On a connected page a press has one of two outcomes, decided by the
    characters of the prompt: when all of them are whitespace for
    [str.isspace] (or there is none) the warning is rendered and the client
    is not called; otherwise no warning is rendered and the prompt is sent
    as it is. *)
Theorem press_outcome_by_whitespace (w : World) (llm : GroqLLM) :
  connected w llm ->
  trigger_pressed w = true ->
  (forallb isspace (user_prompt w) = true ->
   occurs is_warning (snd (run_main w)) = true /\
   generate_calls (snd (run_main w)) = []) /\
  (forallb isspace (user_prompt w) = false ->
   occurs is_warning (snd (run_main w)) = false /\
   generate_calls (snd (run_main w)) = [([VStr (user_prompt w)], [])]).
Proof.
  intros C Hp. split; intro Hs.
  - apply strip_nil_iff in Hs.
    destruct C as (k & Hk & Ht & Hc & Ha).
    unfold_readers. unfold_page. follow. read. split; reflexivity.
  - assert (Hn : strip (user_prompt w) <> []).
    { intro E. apply strip_nil_iff in E. congruence. }
    split; [|exact (generate_called_once C Hp Hn)].
    destruct C as (k & Hk & Ht & Hc & Ha).
    unfold_readers. unfold_page. follow.
    destruct (strip (text_area_value w (py "Enter your prompt:") default_prompt))
      as [|c s] eqn:E; [congruence|].
    all_paths; read; reflexivity.
Qed.

(** A prompt of one zero-width space (U+200B) is not whitespace for
    [str.strip]: it is sent to the client. *)
Lemma press_outcome_by_whitespace_witness :
  generate_calls
    (snd (run_main (stub_world (Returns some_key) (Returns echo_llm)
                      [8203%N] true)))
  = [([VStr [8203%N]], [])] /\
  occurs is_warning
    (snd (run_main (stub_world (Returns some_key) (Returns echo_llm)
                      [160%N; 12288%N] true))) = true.
Proof.
  split.
  - refine (proj2 (proj2 (@press_outcome_by_whitespace
              (stub_world (Returns some_key) (Returns echo_llm) [8203%N] true)
              echo_llm _ eq_refl) eq_refl)).
    exists some_key. repeat split.
  - refine (proj1 (proj1 (@press_outcome_by_whitespace
              (stub_world (Returns some_key) (Returns echo_llm)
                 [160%N; 12288%N] true)
              echo_llm _ eq_refl) eq_refl)).
    exists some_key. repeat split.
Defined.

(** ** What is shown of a response *)

Lemma written_in_writes (t : trace) (p : path) (v : value) :
  In (Ui p (Written v)) t -> In (p, v) (writes t).
Proof.
  induction t as [|e t IH]; cbn [In]; [tauto|].
  intros [He | Hin].
  - subst e. left. reflexivity.
  - specialize (IH Hin).
    destruct e as [q [ | | | | | | | | | | | | | | | ]|q c];
      cbn [writes In]; tauto.
Qed.

Lemma json_in_jsons (t : trace) (p : path) (v : value) :
  In (Ui p (Json v)) t -> In (p, v) (jsons t).
Proof.
  induction t as [|e t IH]; cbn [In]; [tauto|].
  intros [He | Hin].
  - subst e. left. reflexivity.
  - specialize (IH Hin).
    destruct e as [q [ | | | | | | | | | | | | | | | ]|q c];
      cbn [jsons In]; tauto.
Qed.

Lemma writes_of_page (w : World) (p : path) (v : value) :
  In (p, v) (writes (snd (run_main w))) ->
  exists llm r,
    connected w llm /\
    generate llm [VStr (user_prompt w)] [] = Returns r /\
    p = [Column 0] /\ v = VStr (content r).
Proof.
  unfold_readers. unfold_page.
  all_paths; read; intro H;
    first [ exact (False_ind _ H)
          | destruct H as [H | []]; injection H as <- <-;
            eexists; eexists; (split; [show_connected|]);
            split; [found | split; reflexivity] ].
Qed.

Lemma jsons_of_page (w : World) (p : path) (v : value) :
  In (p, v) (jsons (snd (run_main w))) ->
  exists llm r,
    connected w llm /\
    generate llm [VStr (user_prompt w)] [] = Returns r /\
    p = [Column 0; InExpander (py "📊 Response Details")] /\
    v = VDict [(py "model", VStr (model r));
               (py "usage", usage r);
               (py "metadata", metadata r)].
Proof.
  unfold_readers. unfold_page.
  all_paths; read; intro H;
    first [ exact (False_ind _ H)
          | destruct H as [H | []]; injection H as <- <-;
            eexists; eexists; (split; [show_connected|]);
            split; [found | split; reflexivity] ].
Qed.

(** X8.  Whatever [st.write] renders in a run is the content of the response
    that [generate] returned for the prompt, in the first column; whatever
    [st.json] renders is the object of its model, usage and metadata, in the
    expander there.  The page shows no response the client did not return. *)
Theorem shown_response_comes_from_client (w : World) (p : path) (v : value) :
  (renders (snd (run_main w)) p (Written v) ->
   exists llm r,
     connected w llm /\
     generate llm [VStr (user_prompt w)] [] = Returns r /\
     p = [Column 0] /\ v = VStr (content r)) /\
  (renders (snd (run_main w)) p (Json v) ->
   exists llm r,
     connected w llm /\
     generate llm [VStr (user_prompt w)] [] = Returns r /\
     p = [Column 0; InExpander (py "📊 Response Details")] /\
     v = VDict [(py "model", VStr (model r));
                (py "usage", usage r);
                (py "metadata", metadata r)]).
Proof.
  split; intro H.
  - apply writes_of_page, written_in_writes, H.
  - apply jsons_of_page, json_in_jsons, H.
Qed.

(** ** Where a render stops *)

(** X9.  When [generate] raises, caught or not, the rest of the [try] block
    is skipped: no response is shown, the settings sliders are not rendered
    and neither is the code panel. *)
Theorem failed_generation_cuts_render (w : World) (llm : GroqLLM) (e : exn) :
  connected w llm ->
  trigger_pressed w = true ->
  strip (user_prompt w) <> [] ->
  generate llm [VStr (user_prompt w)] [] = Raises e ->
  occurs is_response (snd (run_main w)) = false /\
  sliders (snd (run_main w)) = [] /\
  occurs is_code (snd (run_main w)) = false.
Proof.
  intros (k & Hk & Ht & Hc & Ha) Hp Hn Hg.
  unfold_readers. unfold_page. follow.
  destruct (strip (text_area_value w (py "Enter your prompt:") default_prompt))
    as [|c s] eqn:Hs; [congruence|].
  all_paths; read; repeat split.
Qed.

Lemma failed_generation_cuts_render_witness :
  sliders (snd (run_main (failing_world ConnectionError))) = [] /\
  occurs is_code (snd (run_main (failing_world ConnectionError))) = false.
Proof.
  assert (C : connected (failing_world ConnectionError)
                (failing_llm ConnectionError))
    by (exists some_key; repeat split).
  assert (N : strip (user_prompt (failing_world ConnectionError)) <> [])
    by (vm_compute; discriminate).
  exact (proj2 (@failed_generation_cuts_render _ _ ConnectionError
                  C eq_refl N eq_refl)).
Defined.

(** X10.  A connected render in which the trigger is not pressed, or the
    prompt trims to nothing, or [generate] returns, ends normally with the
    settings column and the code panel. *)
Theorem complete_render_ends_with_footer (w : World) (llm : GroqLLM) :
  connected w llm ->
  (trigger_pressed w = false \/
   strip (user_prompt w) = [] \/
   exists r, generate llm [VStr (user_prompt w)] [] = Returns r) ->
  fst (run_main w) = Finished /\
  exists before, snd (run_main w) = before ++ footer w.
Proof.
  intros (k & Hk & Ht & Hc & Ha) Hcase.
  unfold footer, temperature_slider, max_tokens_slider.
  unfold_readers. unfold_page. follow.
  destruct (button_clicked w (py "🎯 Generate Response")) eqn:Hp; follow.
  - destruct (strip (text_area_value w (py "Enter your prompt:") default_prompt))
      as [|c s] eqn:Hs; follow.
    + split; [reflexivity|].
      match goal with
      | |- exists before, ?L = _ => exists (firstn (List.length L - 10) L)
      end.
      reflexivity.
    + destruct Hcase as [Hf | [Hb | (r & Hg)]]; try discriminate.
      follow. split; [reflexivity|].
      match goal with
      | |- exists before, ?L = _ => exists (firstn (List.length L - 10) L)
      end.
      reflexivity.
  - split; [reflexivity|].
    match goal with
    | |- exists before, ?L = _ => exists (firstn (List.length L - 10) L)
    end.
    reflexivity.
Qed.

Lemma complete_render_ends_with_footer_witness :
  exists before,
    snd (run_main blank_world) = before ++ footer blank_world.
Proof.
  refine (proj2 (@complete_render_ends_with_footer blank_world echo_llm _
                   (or_intror (or_introl eq_refl)))).
  exists some_key. repeat split.
Defined.

(** X11.  An exception leaves [main] exactly in two cases: it was raised by
    the key lookup, the constructor, the availability check or the
    generation and is not an instance of [Exception]; or it was raised by
    [str(e)] in the handler, while an instance of [Exception] raised by one
    of those four calls was being reported.  A run that ends this way has
    rendered no error box. *)
Theorem escape_iff (w : World) (e : exn) :
  (fst (run_main w) = Escaped e <->
   (raised_in w e /\ isinstance_Exception e = false) \/
   (exists e0,
      raised_in w e0 /\ isinstance_Exception e0 = true /\
      exn_str e0 = StrRaises e)) /\
  (fst (run_main w) = Escaped e -> never is_error (snd (run_main w))).
Proof.
  split; [split|].
  - unfold raised_in. unfold_readers. unfold_page.
    all_paths; intro H; try discriminate H; injection H as <-;
      first [ left; split; [show_raised | found]
            | right; eexists; split; [show_raised | split; found] ].
  - intros [[Hr He] | (e0 & Hr & He & Hs)];
      destruct Hr as [Hk | (k & Hk & Ht & [Hc | (llm & Hc & [Ha | (Ha & Hp & Hn & Hg)])])];
      unfold_readers; unfold_page; follow;
      try (destruct (strip (text_area_value w (py "Enter your prompt:") default_prompt))
             as [|c s] eqn:Hx; [congruence|]; follow);
      reflexivity.
  - unfold_readers. unfold_page.
    all_paths; intro H; try discriminate H; reflexivity.
Qed.

(** X12.  The positions of the sliders change nothing but the slider widgets
    themselves: the run ends the same way and, the sliders left out, has the
    same trace, calls included. *)
Theorem sliders_change_only_sliders (w : World)
        (sv : pystr -> number -> number -> number -> number -> number) :
  fst (run_main (with_sliders w sv)) = fst (run_main w) /\
  without_sliders (snd (run_main (with_sliders w sv))) =
  without_sliders (snd (run_main w)).
Proof.
  destruct w as [sg gi ta bc sv0].
  unfold_page.
  lazy beta iota delta
    [with_sliders secrets_get GroqLLM_init text_area_value button_clicked
     slider_value].
  all_paths; read; split; reflexivity.
Qed.

(** ** The script *)

Lemma script_sys_path (dirname : pystr -> pystr) (join : pystr -> pystr -> pystr)
      (r : Run) (sys_path : list pystr) :
  import_streamlit r = None ->
  fst (script dirname join r sys_path) =
  sys_path ++ [join (dirname (__file__ r)) (py "src")].
Proof.
  intro H. unfold script. rewrite H.
  destruct (import_GroqLLM r _); [reflexivity|].
  destruct (pystr_eqb _ _); reflexivity.
Qed.

(** X13.  Every run of the script whose first imports succeed appends the
    [src] directory beside the script to [sys.path], whether or not the
    import of the client then fails and whether or not [main] is called:
    after [n] runs in one interpreter the path has [n] more entries, all the
    same. *)
Theorem sys_path_grows_with_every_rerun
        (dirname : pystr -> pystr) (join : pystr -> pystr -> pystr)
        (file : pystr) (rs : list Run) (sys_path : list pystr) :
  Forall (fun r => __file__ r = file /\ import_streamlit r = None) rs ->
  fst (reruns dirname join rs sys_path) =
  sys_path ++ repeat (join (dirname file) (py "src")) (List.length rs).
Proof.
  intro H. revert sys_path.
  induction H as [|r rs [Hf Hi] _ IH]; intro sys_path.
  - cbn. rewrite app_nil_r. reflexivity.
  - cbn [reruns List.length repeat].
    pose proof (script_sys_path dirname join r sys_path Hi) as E.
    destruct (script dirname join r sys_path) as [sp result].
    cbn [fst] in E. subst sp.
    specialize (IH (sys_path ++ [join (dirname (__file__ r)) (py "src")])).
    destruct (reruns dirname join rs _) as [sp' results].
    cbn [fst] in *. rewrite IH, Hf, <- app_assoc. reflexivity.
Qed.

Lemma sys_path_grows_with_every_rerun_witness :
  fst (reruns app_dirname slash_join
         [streamlit_run idle_world; streamlit_run hello_world;
          broken_import_run idle_world]
         [py "/usr/lib/python3"])
  = [py "/usr/lib/python3"; py "/app/src"; py "/app/src"; py "/app/src"].
Proof.
  refine (eq_trans
            (@sys_path_grows_with_every_rerun app_dirname slash_join
               (py "/app/groq_demo.py") _ _ _) _).
  - repeat constructor.
  - reflexivity.
Defined.
